(** * Restaurant case (third edition): menu items, orders, payments, order queue

    A shallow embedding of [restaurant_case_3rd_ed.py] and the properties
    its specification states about it.

    Modelling conventions.
    - A Python [float] is a binary64 number, the primitive type [float] with
      its IEEE 754 operations: sums and products are rounded, comparisons
      with NaN are false, and [0.9] is the double nearest to 9/10.  The
      parameters annotated [float] ([price], [amount], [cash_given]) are
      floats; the total of an order starts from the [int] 0 and is a
      [number], an [int] or a [float].
    - A Python [int] is an integer [Z].  Where the program multiplies a float
      by an int or adds an int and a float, the int is first converted to
      the nearest double, and the conversion raises [OverflowError] when
      that double is not finite.
    - A Python [str] is the list of its characters, each a Unicode code
      point; text written in the source is given as a Rocq string and read
      through [lit].  [None]-or-object is [option].
    - A method of a mutable object takes the object's state and returns the
      state it leaves behind together with an [outcome]: the returned value,
      the exception raised, or the fact that the call never returns.
    - [print] adds one line to what a call writes; an f-string is the list
      of its literal pieces and interpolated values, kept unrendered so that
      the values reported can be read back: [Fix2 x] stands for the text of
      [x] under the format [:.2f].
    - An [Order] holds its items by value: the entries are the items as they
      are when the total is computed. *)

From Stdlib Require Import ZArith Floats.
From stdpp Require Import gmap strings list fin_maps pretty.

Set Warnings "-inexact-float".
Local Open Scope float_scope.

(** * Part I: the program *)

(** ** Python run-time notions *)

Inductive exn : Type :=
  | ValueError (msg : string)
  | NotImplementedError (msg : string)
  | OverflowError (msg : string).

Inductive outcome (A : Type) : Type :=
  | Returns (a : A)
  | Raises (e : exn)
  | Blocks.

Arguments Returns {A} a.
Arguments Raises {A} e.
Arguments Blocks {A}.

(** Sequencing: the first outcome that is not a return ends the computation. *)
#[global] Instance outcome_bind : MBind outcome := fun A B f m =>
  match m with
  | Returns a => f a
  | Raises e => Raises e
  | Blocks => Blocks
  end.

(** A [for] loop over a list whose body may raise. *)
Fixpoint for_each {A S : Type} (body : S -> A -> outcome S) (items : list A)
    (state : S) : outcome S :=
  match items with
  | [] => Returns state
  | item :: items => state ← body state item; for_each body items state
  end.

(** *** Numbers *)

Inductive number : Type :=
  | Int (n : Z)
  | Float (x : float).

(** [float(n)] where an operator converts its [int] operand: the double
    nearest to [n], ties to even, unless that is an infinity. *)
Definition float_of_int (n : Z) : outcome float :=
  let x := SF2Prim (binary_normalize prec emax n 0 false) in
  if is_finite x
  then Returns x
  else Raises (OverflowError "int too large to convert to float").

(** [x * n] for a float [x] and an int [n]. *)
Definition float_mul_int (x : float) (n : Z) : outcome float :=
  y ← float_of_int n; Returns (x * y).

(** [a + x] for a number [a] and a float [x]. *)
Definition number_add_float (a : number) (x : float) : outcome float :=
  match a with
  | Int n => y ← float_of_int n; Returns (y + x)
  | Float y => Returns (y + x)
  end.

(** *** Text *)

Definition char : Type := N.

Definition str : Type := list char.

(** The [str] of a text written in the source. *)
Definition lit (s : string) : str :=
  (fun c => Ascii.N_of_ascii c) <$> String.list_ascii_of_string s.

Coercion lit : string >-> str.

(** Pieces of an f-string: literal text, a [str] value, a number under the
    format [:.2f]. *)
Inductive piece : Type :=
  | Lit (s : string)
  | Str (s : str)
  | Fix2 (x : number).

Definition fstring : Type := list piece.

(** The one-character string of a line feed, and [sep.join(parts)] on
    unrendered text. *)
Definition newline : string := String (Ascii.ascii_of_nat 10) EmptyString.

Fixpoint join (sep : fstring) (parts : list fstring) : fstring :=
  match parts with
  | [] => []
  | [part] => part
  | part :: parts => part ++ sep ++ join sep parts
  end.

(** [s[start:]] for a [str]: a negative [start] counts from the end, and the
    bounds are clamped to the string. *)
Definition slice_from (s : str) (start : Z) : str :=
  let len := Z.of_nat (length s) in
  let start := if (start <? 0)%Z then Z.max (len + start) 0 else Z.min start len in
  drop (Z.to_nat start) s.

(** ** class MenuItem and its subclasses *)

(** The class of an instance, with the attributes the subclass adds. *)
Inductive subclass : Type :=
  | base
  | beverage (_size : str)
  | appetizer (_portion_size : str)
  | maincourse.

Record MenuItem : Type := mkMenuItem
  { _name : str;
    _price : float;
    _class : subclass }.

(** The four [__init__]s.  None of them looks at the price. *)
Definition MenuItem_ (name : str) (price : float) : MenuItem :=
  mkMenuItem name price base.

Definition Beverage (name : str) (price : float) (size : str) : MenuItem :=
  mkMenuItem name price (beverage size).

Definition Appetizer (name : str) (price : float) (portion_size : str) : MenuItem :=
  mkMenuItem name price (appetizer portion_size).

Definition Maincourse (name : str) (price : float) : MenuItem :=
  mkMenuItem name price maincourse.

(** [isinstance(item, Maincourse)] and [isinstance(item, Beverage)]. *)
Definition isinstance_Maincourse (item : MenuItem) : bool :=
  match _class item with maincourse => true | _ => false end.

Definition isinstance_Beverage (item : MenuItem) : bool :=
  match _class item with beverage _ => true | _ => false end.

Definition get_name (self : MenuItem) : str := _name self.

Definition set_name (self : MenuItem) (name : str) : MenuItem * outcome unit :=
  (mkMenuItem name (_price self) (_class self), Returns tt).

Definition get_price (self : MenuItem) : float := _price self.

Definition set_price (self : MenuItem) (price : float) : MenuItem * outcome unit :=
  if price <? 0
  then (self, Raises (ValueError "Price cannot be negative."))
  else (mkMenuItem (_name self) price (_class self), Returns tt).

Definition total_price (self : MenuItem) (quantity : Z) : outcome float :=
  float_mul_int (_price self) quantity.

Module MenuItem.

(** [__str__], as the class of [self] defines or overrides it. *)
Definition __str__ (self : MenuItem) : fstring :=
  match _class self with
  | base | maincourse => [Str (_name self); Lit " - $"; Fix2 (Float (_price self))]
  | beverage _size =>
      [Str (_name self); Lit " - $"; Fix2 (Float (_price self));
       Lit " ("; Str _size; Lit ")"]
  | appetizer _portion_size =>
      [Str (_name self); Lit " - $"; Fix2 (Float (_price self));
       Lit " ("; Str _portion_size; Lit ")"]
  end.

End MenuItem.

(** ** class Order *)

Record Order : Type := mkOrder
  { _order_items : list (MenuItem * Z) }.

Module Order.

Definition __init__ : Order := mkOrder [].

Definition add_menu_item (self : Order) (item : MenuItem) (quantity : Z)
  : Order * outcome unit :=
  (mkOrder (_order_items self ++ [(item, quantity)]), Returns tt).

(** One turn of the [for] loop of [calculate_total_price]. *)
Definition accumulate (has_maincourse : bool) (total : number) (entry : MenuItem * Z)
  : outcome number :=
  let '(item, quantity) := entry in
  if has_maincourse && isinstance_Beverage item
  then
    subtotal ← total_price item quantity;
    total ← number_add_float total (subtotal * 0.9);
    Returns (Float total)
  else
    subtotal ← total_price item quantity;
    total ← number_add_float total subtotal;
    Returns (Float total).

Definition calculate_total_price (self : Order) : outcome number :=
  let total := Int 0 in
  let has_maincourse :=
    existsb (fun '(item, _) => isinstance_Maincourse item) (_order_items self) in
  for_each (accumulate has_maincourse) (_order_items self) total.

(** [{quantity}] renders an [int] in decimal, [{item}] through the item's
    [__str__]. *)
Definition __str__ (self : Order) : fstring :=
  join [Lit newline]
    (map (fun '(item, quantity) =>
            [Str (lit (pretty quantity)); Lit "x "] ++ MenuItem.__str__ item)
       (_order_items self)).

End Order.

(** ** class Payment and its subclasses *)

(** An instance of [Payment] itself, of [CardPayment] or of [CashPayment]. *)
Inductive Payment : Type :=
  | Payment_
  | CardPayment (_card_number : str) (_cvv : Z)
  | CashPayment (_cash_given : float).

(** [pay] is looked up in the class of [self]; the call yields the lines
    printed and its outcome. *)
Definition pay (self : Payment) (amount : float) : list fstring * outcome unit :=
  match self with
  | Payment_ =>
      ([], Raises (NotImplementedError "Subclasses must implement the pay() method."))
  | CardPayment _card_number _ =>
      ([[Lit "Paying $"; Fix2 (Float amount); Lit " with card ending in ";
         Str (slice_from _card_number (-4))]],
       Returns tt)
  | CashPayment _cash_given =>
      if amount <=? _cash_given
      then
        let change := _cash_given - amount in
        ([[Lit "Paid $"; Fix2 (Float amount); Lit " in cash. Change: $";
           Fix2 (Float change)]],
         Returns tt)
      else
        ([[Lit "Insufficient funds. Need $"; Fix2 (Float (amount - _cash_given));
           Lit " more."]],
         Returns tt)
  end.

(** ** queue.Queue, as far as OrderManager uses it

    [Queue()] has no size bound, so [put] never waits; [get] waits for an
    item, which in a single thread means forever when there is none. *)
Module Queue.

Section Operations.
Context {A : Type}.

(** Oldest item first. *)
Definition t : Type := list A.

Definition new : t := [].

Definition put (q : t) (item : A) : t := q ++ [item].

Definition get (q : t) : t * outcome A :=
  match q with
  | [] => (q, Blocks)
  | item :: rest => (rest, Returns item)
  end.

Definition empty (q : t) : bool :=
  match q with [] => true | _ => false end.

Definition qsize (q : t) : nat := length q.

End Operations.

Arguments t : clear implicits.

End Queue.

(** ** class OrderManager *)

Record OrderManager : Type := mkOrderManager
  { _orders : Queue.t Order }.

Module OrderManager.

Definition __init__ : OrderManager := mkOrderManager Queue.new.

Definition add_order (self : OrderManager) (order : Order) : OrderManager * outcome unit :=
  (mkOrderManager (Queue.put (_orders self) order), Returns tt).

(** Returns the oldest order, or [None]. *)
Definition process_order (self : OrderManager) : OrderManager * outcome (option Order) :=
  if negb (Queue.empty (_orders self))
  then
    match Queue.get (_orders self) with
    | (rest, Returns order) => (mkOrderManager rest, Returns (Some order))
    | (rest, Raises e) => (mkOrderManager rest, Raises e)
    | (rest, Blocks) => (mkOrderManager rest, Blocks)
    end
  else (self, Returns None).

Definition __len__ (self : OrderManager) : nat := Queue.qsize (_orders self).

(** A caller's use of a manager: a sequence of calls, made in order.  The
    run stops at a call that does not return; it yields the manager at the
    end and what the [process_order] calls produced. *)
Inductive call : Type :=
  | call_add_order (order : Order)
  | call_process_order.

Fixpoint run (calls : list call) (self : OrderManager)
  : OrderManager * list (outcome (option Order)) :=
  match calls with
  | [] => (self, [])
  | call_add_order order :: calls =>
      match add_order self order with
      | (self, Returns _) => run calls self
      | (self, _) => (self, [])
      end
  | call_process_order :: calls =>
      match process_order self with
      | (self, Returns result) =>
          let '(final, results) := run calls self in
          (final, Returns result :: results)
      | (self, stuck) => (self, [stuck])
      end
  end.

End OrderManager.

(** ** class Menu

    [menu_items] maps a category to the list of its items; an item is the
    dict [{"name": ..., "price": ...}], a record here. *)
Record item_dict : Type := mkItem
  { name : str;
    price : float }.

Record Menu : Type := mkMenu
  { menu_items : gmap str (list item_dict) }.

Module Menu.

Definition __init__ : Menu := mkMenu ∅.

Definition add_item (self : Menu) (category name : str) (price : float) : Menu :=
  let items :=
    match menu_items self !! category with
    | None => <[category := []]> (menu_items self)
    | Some _ => menu_items self
    end in
  mkMenu (alter (fun l => l ++ [mkItem name price]) category items).

Definition delete_item (self : Menu) (category name' : str) : Menu * bool :=
  match menu_items self !! category with
  | Some items =>
      (mkMenu (<[category := filter (fun item => name item ≠ name') items]>
                 (menu_items self)),
       true)
  | None => (self, false)
  end.

(** The [for] loop of [update_item] over the items of the category: [None]
    when it ends without finding [old_name]. *)
Fixpoint update_first (old_name new_name : str) (new_price : float)
    (items : list item_dict) : option (list item_dict) :=
  match items with
  | [] => None
  | item :: items =>
      if decide (name item = old_name)
      then Some (mkItem new_name new_price :: items)
      else cons item <$> update_first old_name new_name new_price items
  end.

Definition update_item (self : Menu) (category old_name new_name : str)
    (new_price : float) : Menu * bool :=
  match menu_items self !! category with
  | Some items =>
      match update_first old_name new_name new_price items with
      | Some items => (mkMenu (<[category := items]> (menu_items self)), true)
      | None => (self, false)
      end
  | None => (self, false)
  end.

Definition get_menu (self : Menu) : gmap str (list item_dict) := menu_items self.

End Menu.

(** ** The example usage at the end of the module

    The two orders of the script are built from plain [MenuItem]s. *)
Definition order1 : Order :=
  mkOrder [(MenuItem_ "Coke" 2.5, 2%Z);
           (MenuItem_ "Spring Rolls" 5.0, 1%Z);
           (MenuItem_ "Spaghetti" 12.0, 1%Z)].

Definition order2 : Order :=
  mkOrder [(MenuItem_ "Coke" 2.5, 1%Z); (MenuItem_ "Spring Rolls" 5.0, 2%Z)].

Definition menu : Menu :=
  Menu.add_item
    (Menu.add_item (Menu.add_item Menu.__init__ "Beverage" "Coke" 2.5)
       "Appetizer" "Spring Rolls" 5.0)
    "Maincourse" "Spaghetti" 12.0.

(** The processing loop that ends the script, for any manager.  [fuel]
    bounds the number of times the [while] condition is evaluated; the loop
    yields the manager it leaves, the lines printed and how it ended.  The
    total is computed when the third line is formatted, after the first two
    lines are out. *)
Fixpoint process_orders (fuel : nat) (order_manager : OrderManager)
  : option (OrderManager * list fstring * outcome unit) :=
  match fuel with
  | O => None
  | S fuel =>
      if (0 <? OrderManager.__len__ order_manager)%nat
      then
        match OrderManager.process_order order_manager with
        | (order_manager, Returns (Some processed_order)) =>
            let printed :=
              [[Lit "\processed order:"]; Order.__str__ processed_order] in
            match Order.calculate_total_price processed_order with
            | Returns total =>
                match process_orders fuel order_manager with
                | Some (final, lines, ending) =>
                    Some (final,
                          printed ++ [Lit "Total to pay: $"; Fix2 total] :: lines,
                          ending)
                | None => None
                end
            | Raises e => Some (order_manager, printed, Raises e)
            | Blocks => Some (order_manager, printed, Blocks)
            end
        | (order_manager, Returns None) => process_orders fuel order_manager
        | (order_manager, Raises e) => Some (order_manager, [], Raises e)
        | (order_manager, Blocks) => Some (order_manager, [], Blocks)
        end
      else Some (order_manager, [], Returns tt)
  end.

(** * Part II: notions used to state the properties *)

(** Any number of [set_price] calls on one item, whatever each one's outcome. *)
Definition set_prices (self : MenuItem) (prices : list float) : MenuItem :=
  fold_left (fun item price => fst (set_price item price)) prices self.

(** What the specification says of the price of an item under one
    [set_price] call, read literally: a price that is not negative stays so. *)
Definition price_invariant_claim (self : MenuItem) (price : float) : Prop :=
  (0 <=? get_price self) = true ->
  (0 <=? get_price (fst (set_price self price))) = true.


(** An entry's price × quantity, and the same with the beverage discount,
    in the program's arithmetic. *)
Definition subtotal (entry : MenuItem * Z) : outcome float :=
  float_mul_int (_price (fst entry)) (snd entry).

Definition discounted_subtotal (entry : MenuItem * Z) : outcome float :=
  match _class (fst entry) with
  | beverage _ => amount ← subtotal entry; Returns (amount * 0.9)
  | _ => subtotal entry
  end.

(** The sum of the terms taken in list order, starting from [start]; a term
    that does not return ends the sum with its outcome. *)
Fixpoint sum_from (start : number) (terms : list (outcome float)) : outcome number :=
  match terms with
  | [] => Returns start
  | term :: terms =>
      amount ← term;
      total ← number_add_float start amount;
      sum_from (Float total) terms
  end.

Definition has_Maincourse_entry (self : Order) : Prop :=
  exists item quantity,
    (item, quantity) ∈ _order_items self /\ _class item = maincourse.

(** [add_menu_item] refusing a quantity: it raises and leaves the order as
    it was. *)
Definition add_menu_item_rejects (self : Order) (item : MenuItem) (quantity : Z) : Prop :=
  exists e, Order.add_menu_item self item quantity = (self, Raises e).

(** The orders of scenarios A and B of the specification. *)
Definition order_A : Order :=
  mkOrder [(Beverage "Coke" 2.50 "Large", 2%Z);
           (Appetizer "Spring Rolls" 5.00 "6 pieces", 1%Z);
           (Maincourse "Spaghetti" 12.00, 1%Z)].

Definition order_B : Order :=
  mkOrder [(Beverage "Coke" 2.50 "Large", 1%Z);
           (Appetizer "Spring Rolls" 5.00 "6 pieces", 2%Z)].

(** The orders a sequence of calls adds, the orders a list of results hands
    back, and the number of [process_order] calls. *)
Definition added (calls : list OrderManager.call) : list Order :=
  omap (fun c =>
          match c with
          | OrderManager.call_add_order order => Some order
          | OrderManager.call_process_order => None
          end) calls.

Definition processed (results : list (outcome (option Order))) : list Order :=
  omap (fun r => match r with Returns (Some order) => Some order | _ => None end) results.

Fixpoint process_calls (calls : list OrderManager.call) : nat :=
  match calls with
  | [] => 0
  | OrderManager.call_add_order _ :: calls => process_calls calls
  | OrderManager.call_process_order :: calls => S (process_calls calls)
  end.

Definition returned {A : Type} (r : outcome A) : Prop :=
  match r with Returns _ => True | _ => False end.

(** A menu with two items of the same name in one category. *)
Definition menu_two_cokes : Menu :=
  Menu.add_item (Menu.add_item menu "Beverage" "Tea" 2) "Beverage" "Coke" 3.

(** A sequence of [add_menu_item] calls on one order. *)
Definition add_menu_items (self : Order) (entries : list (MenuItem * Z)) : Order :=
  fold_left
    (fun order '(item, quantity) => fst (Order.add_menu_item order item quantity))
    entries self.




(** * Part III: properties *)

(** ** Binary64 numbers through their specification *)

Lemma Prim2SF_0 : Prim2SF 0 = S754_zero false.
Proof. reflexivity. Qed.

Lemma SFcompare_refl (x : spec_float) :
  SFcompare x x = match x with S754_nan => None | _ => Some Eq end.
Proof.
  destruct x as [s | s | | s m e]; unfold SFcompare.
  - reflexivity.
  - now destruct s.
  - reflexivity.
  - rewrite Z.compare_refl, Pos.compare_cont_refl. now destruct s.
Qed.

Lemma is_nan_spec (x : float) :
  is_nan x = match Prim2SF x with S754_nan => true | _ => false end.
Proof.
  unfold is_nan. rewrite FloatAxioms.eqb_spec. unfold SFeqb.
  rewrite SFcompare_refl. now destruct (Prim2SF x).
Qed.


(** A float that is not below zero is at least zero, unless it is NaN. *)
Lemma not_negative (x : float) :
  (x <? 0) = false <-> (0 <=? x) = true \/ is_nan x = true.
Proof.
  rewrite is_nan_spec, FloatAxioms.ltb_spec, FloatAxioms.leb_spec, Prim2SF_0.
  destruct (Prim2SF x) as [s | s | | s m e]; simpl; try destruct s; simpl;
    intuition discriminate.
Qed.












(** ** MenuItem *)

Lemma set_price_raises (self : MenuItem) (price : float) :
  (price <? 0) = true ->
  set_price self price = (self, Raises (ValueError "Price cannot be negative.")).
Proof. intros Hneg. unfold set_price. now rewrite Hneg. Qed.

Lemma set_price_stores (self : MenuItem) (price : float) :
  (price <? 0) = false ->
  set_price self price = (mkMenuItem (_name self) price (_class self), Returns tt).
Proof. intros Hpos. unfold set_price. now rewrite Hpos. Qed.

Lemma set_price_keeps_nonneg (self : MenuItem) (price : float) :
  (0 <=? get_price self) = true -> is_nan price = false ->
  (0 <=? get_price (fst (set_price self price))) = true.
Proof.
  intros Hinv Hnan. unfold set_price, get_price in *.
  destruct (price <? 0) eqn:Hcmp; simpl; [assumption |].
  apply not_negative in Hcmp as [Hle | Hnan']; [assumption | congruence].
Qed.

Lemma set_prices_keep_nonneg (prices : list float) (self : MenuItem) :
  (0 <=? get_price self) = true ->
  Forall (fun price => is_nan price = false) prices ->
  (0 <=? get_price (set_prices self prices)) = true.
Proof.
  unfold set_prices. intros Hinv Hprices. revert self Hinv.
  induction Hprices as [| price prices Hprice _ IH]; intros self Hinv; simpl.
  - assumption.
  - apply IH. now apply set_price_keeps_nonneg.
Qed.

(** C4, as stated, fails: NaN is not below zero, so [set_price] stores it,
    and a price that was not negative is then no longer at least zero. *)
Lemma set_price_nan_breaks_invariant :
  ~ price_invariant_claim (Beverage "Coke" 2.5 "Large") nan.
Proof.
  unfold price_invariant_claim. intros Hclaim.
  specialize (Hclaim eq_refl). vm_compute in Hclaim. discriminate Hclaim.
Qed.

(** C4, amended. [set_price] with a negative price raises the error of an
    invalid price (a [ValueError]) and leaves the item, hence its stored
    price, as it was.  NaN is not negative and is stored.  So a price that
    is at least zero stays so under [set_price], called once or any number
    of times, as long as no argument is NaN. *)
Theorem set_price_negative_rejected (self : MenuItem) (price : float) :
  ((price <? 0) = true ->
   set_price self price = (self, Raises (ValueError "Price cannot be negative."))
   /\ get_price (fst (set_price self price)) = get_price self)
  /\ (is_nan price = true ->
      set_price self price = (mkMenuItem (_name self) price (_class self), Returns tt))
  /\ ((0 <=? get_price self) = true -> is_nan price = false ->
      (0 <=? get_price (fst (set_price self price))) = true)
  /\ (forall prices,
        (0 <=? get_price self) = true ->
        Forall (fun price => is_nan price = false) prices ->
        (0 <=? get_price (set_prices self prices)) = true).
Proof.
  split; [| split; [| split]].
  - intros Hneg. now rewrite set_price_raises.
  - intros Hnan. apply set_price_stores, not_negative. now right.
  - apply set_price_keeps_nonneg.
  - intros prices. apply set_prices_keep_nonneg.
Qed.

Lemma set_price_negative_rejected_witness :
  set_price (Beverage "Coke" 2.5 "Large") (-1)
  = (Beverage "Coke" 2.5 "Large", Raises (ValueError "Price cannot be negative."))
  /\ set_price (Beverage "Coke" 2.5 "Large") nan = (Beverage "Coke" nan "Large", Returns tt)
  /\ (0 <=? get_price (set_prices (Beverage "Coke" 2.5 "Large") [3; -1; 0])) = true.
Proof.
  destruct (set_price_negative_rejected (Beverage "Coke" 2.5 "Large") (-1))
    as (Hraise & _ & _ & Hmany).
  destruct (set_price_negative_rejected (Beverage "Coke" 2.5 "Large") nan)
    as (_ & Hnan & _).
  split; [| split].
  - apply Hraise. reflexivity.
  - apply Hnan. reflexivity.
  - apply Hmany; [reflexivity |]. repeat constructor.
Defined.

Example set_price_examples :
  set_price (Beverage "Coke" 2.5 "Large") 3 = (Beverage "Coke" 3 "Large", Returns tt)
  /\ set_price (Beverage "Coke" 2.5 "Large") 0 = (Beverage "Coke" 0 "Large", Returns tt)
  /\ set_price (Beverage "Coke" 2.5 "Large") (-0) = (Beverage "Coke" (-0) "Large", Returns tt)
  /\ set_price (Beverage "Coke" 2.5 "Large") neg_infinity
     = (Beverage "Coke" 2.5 "Large", Raises (ValueError "Price cannot be negative."))
  /\ set_prices (Beverage "Coke" 2.5 "Large") [3; -1] = Beverage "Coke" 3 "Large".
Proof. repeat split. Qed.




Example total_price_examples :
  total_price (Beverage "Coke" 2.5 "Large") 2 = Returns 5
  /\ total_price (Beverage "Coke" 2.5 "Large") 0 = Returns 0
  /\ total_price (Beverage "Coke" 2.5 "Large") (-2) = Returns (-5)
  /\ total_price (Beverage "Tea" 0.1 "Small") 3 = Returns 0.30000000000000004
  /\ total_price (MenuItem_ "Water" 0) (-1) = Returns (-0)
  /\ total_price (MenuItem_ "Water" infinity) 0 = Returns nan
  /\ total_price (Beverage "Tea" 0.5 "Small") (2 ^ 1024 - 2 ^ 970 - 1)
     = Returns 0x1.fffffffffffffp+1022
  /\ total_price (Beverage "Coke" 2.5 "Large") (2 ^ 1024 - 2 ^ 970 - 1)
     = Returns infinity.
Proof. repeat split. Qed.

(** ** Order *)

Lemma isinstance_Maincourse_class (item : MenuItem) :
  isinstance_Maincourse item = true <-> _class item = maincourse.
Proof.
  unfold isinstance_Maincourse.
  destruct (_class item); split; intros H; try reflexivity; discriminate H.
Qed.

(** The scan that sets [has_maincourse] finds a Maincourse entry exactly
    when there is one. *)
Lemma has_maincourse_scan (self : Order) :
  existsb (fun '(item, _) => isinstance_Maincourse item) (_order_items self) = true
  <-> has_Maincourse_entry self.
Proof.
  rewrite existsb_exists. unfold has_Maincourse_entry. split.
  - intros [[item quantity] [Hin Hcls]].
    exists item, quantity. split.
    + now apply list_elem_of_In.
    + now apply isinstance_Maincourse_class.
  - intros (item & quantity & Hin & Hcls).
    exists (item, quantity). split.
    + now apply list_elem_of_In.
    + now apply isinstance_Maincourse_class.
Qed.

Lemma has_maincourse_scan_false (self : Order) :
  existsb (fun '(item, _) => isinstance_Maincourse item) (_order_items self) = false
  <-> ~ has_Maincourse_entry self.
Proof.
  rewrite <- has_maincourse_scan. now destruct (existsb _ _).
Qed.

(** One turn of the loop adds to the running total what the entry
    contributes, or ends with the error of the entry's product. *)
Lemma accumulate_discount (total : number) (entry : MenuItem * Z) :
  Order.accumulate true total entry
  = (amount ← discounted_subtotal entry;
     total ← number_add_float total amount;
     Returns (Float total)).
Proof.
  destruct entry as [item quantity].
  unfold Order.accumulate, discounted_subtotal, subtotal, total_price, isinstance_Beverage.
  simpl. destruct (_class item); simpl; try reflexivity.
  now destruct (float_mul_int (_price item) quantity).
Qed.


Lemma for_each_accumulate (has_maincourse : bool)
    (contribution : MenuItem * Z -> outcome float) :
  (forall total entry,
      Order.accumulate has_maincourse total entry
      = (amount ← contribution entry;
         total ← number_add_float total amount;
         Returns (Float total))) ->
  forall entries start,
    for_each (Order.accumulate has_maincourse) entries start
    = sum_from start (map contribution entries).
Proof.
  intros Hstep entries.
  induction entries as [| entry entries IH]; intros start; simpl.
  - reflexivity.
  - rewrite Hstep. destruct (contribution entry) as [amount | e |]; simpl;
      try reflexivity.
    destruct (number_add_float start amount) as [total | e |]; simpl;
      try reflexivity.
    apply IH.
Qed.




(** Scenarios A and B of the specification, and the two orders of the
    example usage (plain items: no discount although there is spaghetti). *)
Example scenario_A : Order.calculate_total_price order_A = Returns (Float 21.50).
Proof. reflexivity. Qed.

Example scenario_B : Order.calculate_total_price order_B = Returns (Float 12.50).
Proof. reflexivity. Qed.

Example example_usage_totals :
  Order.calculate_total_price order1 = Returns (Float 22.00)
  /\ Order.calculate_total_price order2 = Returns (Float 12.50).
Proof. split; reflexivity. Qed.

(** Doubles at work: three plain items at 0.1, 0.2 and 0.3 total
    0.6000000000000001, the same items in another order total 0.6, and a
    quantity beyond the doubles makes the total raise. *)
Example rounded_totals :
  Order.calculate_total_price
    (mkOrder [(MenuItem_ "a" 0.1, 1%Z); (MenuItem_ "b" 0.2, 1%Z); (MenuItem_ "c" 0.3, 1%Z)])
  = Returns (Float 0.6000000000000001)
  /\ Order.calculate_total_price
       (mkOrder [(MenuItem_ "c" 0.3, 1%Z); (MenuItem_ "b" 0.2, 1%Z); (MenuItem_ "a" 0.1, 1%Z)])
     = Returns (Float 0.6)
  /\ Order.calculate_total_price
       (mkOrder [(MenuItem_ "a" 0.1, 1%Z); (MenuItem_ "b" 0.2, (10 ^ 400)%Z)])
     = Raises (OverflowError "int too large to convert to float").
Proof. repeat split. Qed.

(** C9. A freshly created order has no entries, hence no Maincourse entry,
    and its total is 0. *)
Theorem calculate_total_price_empty :
  _order_items Order.__init__ = []
  /\ ~ has_Maincourse_entry Order.__init__
  /\ Order.calculate_total_price Order.__init__ = Returns (Int 0).
Proof.
  split; [reflexivity |]. split; [| reflexivity].
  intros (item & quantity & Hin & _). simpl in Hin.
  now apply not_elem_of_nil in Hin.
Qed.

(** C5, as stated, fails: quantity 0 is not refused. *)
Lemma add_menu_item_accepts_zero :
  ~ add_menu_item_rejects Order.__init__ (Beverage "Coke" 2.5 "Large") 0.
Proof. intros [e He]. discriminate He. Qed.

(** C5, amended. [add_menu_item] checks nothing: for every quantity,
    positive or not, it returns normally and the order's entries are the
    former ones followed by the new (item, quantity) entry. *)
Theorem add_menu_item_appends (self : Order) (item : MenuItem) (quantity : Z) :
  snd (Order.add_menu_item self item quantity) = Returns tt
  /\ _order_items (fst (Order.add_menu_item self item quantity))
     = _order_items self ++ [(item, quantity)]
  /\ ~ add_menu_item_rejects self item quantity.
Proof.
  split; [reflexivity |]. split; [reflexivity |].
  intros [e He]. discriminate He.
Qed.

Example add_menu_item_examples :
  fst (Order.add_menu_item
         (fst (Order.add_menu_item Order.__init__ (Beverage "Coke" 2.5 "Large") 2))
         (Maincourse "Spaghetti" 12.0) (-1))
  = mkOrder [(Beverage "Coke" 2.5 "Large", 2%Z); (Maincourse "Spaghetti" 12.0, (-1)%Z)].
Proof. reflexivity. Qed.

(** ** OrderManager *)

Section OrderManagerProperties.

Import OrderManager.

Lemma process_order_empty (self : OrderManager) :
  __len__ self = 0%nat -> process_order self = (self, Returns None).
Proof.
  destruct self as [q]. unfold __len__, process_order, Queue.qsize. simpl.
  destruct q; [reflexivity | discriminate].
Qed.

Lemma process_order_oldest (order : Order) (rest : list Order) :
  process_order (mkOrderManager (order :: rest))
  = (mkOrderManager rest, Returns (Some order)).
Proof. reflexivity. Qed.

(** [process_order] never waits and never raises. *)
Lemma process_order_returns (self : OrderManager) :
  returned (snd (process_order self)).
Proof. destruct self as [[| order rest]]; exact I. Qed.

Lemma run_add_orders (orders : list Order) (calls : list call) (q : list Order) :
  run (map call_add_order orders ++ calls) (mkOrderManager q)
  = run calls (mkOrderManager (q ++ orders)).
Proof.
  revert q. induction orders as [| order orders IH]; intros q; simpl.
  - now rewrite app_nil_r.
  - unfold Queue.put. simpl. rewrite IH. now rewrite <- app_assoc.
Qed.

Lemma run_process_orders (j : nat) (q : list Order) :
  run (replicate j call_process_order) (mkOrderManager q)
  = (mkOrderManager (drop j q),
     map (fun order => Returns (Some order)) (take j q)
     ++ replicate (j - length q) (Returns None)).
Proof.
  revert q. induction j as [| j IH]; intros q.
  - simpl. now rewrite drop_0.
  - destruct q as [| order rest].
    + simpl in *. specialize (IH []). simpl in IH. rewrite IH.
      rewrite drop_nil, take_nil. simpl. now rewrite Nat.sub_0_r.
    + change (replicate (S j) call_process_order)
        with (call_process_order :: replicate j call_process_order).
      cbn [run]. rewrite process_order_oldest, IH. reflexivity.
Qed.

(** Whatever the calls and their order: every [process_order] returns, and
    the orders handed back, followed by those still waiting, are the orders
    that were waiting at the start followed by those added. *)
Lemma run_fifo (calls : list call) (self : OrderManager) :
  Forall returned (snd (run calls self))
  /\ length (snd (run calls self)) = process_calls calls
  /\ processed (snd (run calls self)) ++ _orders (fst (run calls self))
     = _orders self ++ added calls.
Proof.
  revert self. induction calls as [| c calls IH]; intros [q].
  - simpl. repeat split; [constructor | now rewrite app_nil_r].
  - destruct c as [order |].
    + cbn [run add_order _orders].
      destruct (IH (mkOrderManager (Queue.put q order))) as (Hret & Hlen & Hfifo).
      repeat split; try assumption.
      rewrite Hfifo. unfold Queue.put. simpl. now rewrite <- app_assoc.
    + destruct q as [| order rest].
      * cbn [run]. rewrite process_order_empty by reflexivity.
        destruct (IH (mkOrderManager [])) as (Hret & Hlen & Hfifo).
        destruct (run calls (mkOrderManager [])) as [final results] eqn:Hrun.
        simpl in *. repeat split.
        -- constructor; [exact I | assumption].
        -- now rewrite Hlen.
        -- assumption.
      * cbn [run]. rewrite process_order_oldest.
        destruct (IH (mkOrderManager rest)) as (Hret & Hlen & Hfifo).
        destruct (run calls (mkOrderManager rest)) as [final results] eqn:Hrun.
        simpl in *. repeat split.
        -- constructor; [exact I | assumption].
        -- now rewrite Hlen.
        -- now rewrite Hfifo.
Qed.

(** When every call returned and none of them returned [None], each result
    is an order handed back. *)
Lemma processed_all (results : list (outcome (option Order))) :
  Forall returned results ->
  Forall (fun r => r <> Returns None) results ->
  length (processed results) = length results.
Proof.
  induction 1 as [| r results Hret _ IH]; intros Hfound; [reflexivity |].
  apply Forall_cons in Hfound as [Hr Hfound].
  destruct r as [[order |] | e |]; try contradiction.
  change (processed (Returns (Some order) :: results))
    with (order :: processed results).
  simpl. f_equal. now apply IH.
Qed.

(** C2. On a fresh manager, adding [orders] and then calling
    [process_order] [j] times hands back the first [j] orders in the order
    they were added and [None] for every call beyond the last order; the
    length is then the number of orders added minus [j] when [j] does not
    exceed it.  [process_order] on an empty manager returns [None] and
    changes nothing.  For calls made in any order, every [process_order]
    returns, the orders come back in the order they were added, and the
    length is the number of orders added minus the number handed back, which
    is the number of [process_order] calls when none of them found the
    manager empty. *)
Theorem order_manager_fifo :
  (forall (orders : list Order) (j : nat),
      let ran := run (map call_add_order orders ++ replicate j call_process_order)
                     OrderManager.__init__ in
      snd ran
      = map (fun order => Returns (Some order)) (take j orders)
        ++ replicate (j - length orders) (Returns None)
      /\ (j <= length orders -> __len__ (fst ran) = length orders - j)%nat)
  /\ (forall self, __len__ self = 0%nat -> process_order self = (self, Returns None))
  /\ (forall calls : list call,
        let ran := run calls OrderManager.__init__ in
        Forall returned (snd ran)
        /\ length (snd ran) = process_calls calls
        /\ processed (snd ran) ++ _orders (fst ran) = added calls
        /\ __len__ (fst ran)
           = (length (added calls) - length (processed (snd ran)))%nat
        /\ (Forall (fun r => r <> Returns None) (snd ran) ->
            __len__ (fst ran) = (length (added calls) - process_calls calls)%nat)).
Proof.
  split; [| split].
  - intros orders j ran. subst ran. unfold OrderManager.__init__, Queue.new.
    rewrite run_add_orders, run_process_orders. simpl. split; [reflexivity |].
    intros _. unfold __len__, Queue.qsize. simpl. apply length_drop.
  - apply process_order_empty.
  - intros calls ran. subst ran.
    destruct (run_fifo calls OrderManager.__init__) as (Hret & Hlen & Hfifo).
    simpl in Hfifo.
    assert (__len__ (fst (run calls OrderManager.__init__))
            = (length (added calls)
               - length (processed (snd (run calls OrderManager.__init__))))%nat)
      as Hsize.
    { unfold __len__, Queue.qsize. rewrite <- Hfifo, length_app. lia. }
    repeat split; try assumption.
    intros Hfound. rewrite Hsize, <- Hlen. f_equal.
    now apply processed_all.
Qed.

Lemma order_manager_fifo_witness :
  snd (run [call_add_order order1; call_add_order order2;
            call_process_order; call_process_order; call_process_order]
           OrderManager.__init__)
  = [Returns (Some order1); Returns (Some order2); Returns None]
  /\ __len__ (fst (run [call_add_order order1; call_add_order order2; call_process_order]
                       OrderManager.__init__)) = 1%nat
  /\ process_order OrderManager.__init__ = (OrderManager.__init__, Returns None).
Proof.
  destruct order_manager_fifo as (Hfifo & Hempty & _).
  split; [| split].
  - exact (proj1 (Hfifo [order1; order2] 3%nat)).
  - apply (proj2 (Hfifo [order1; order2] 1%nat)). simpl. lia.
  - apply Hempty. reflexivity.
Defined.

(** Scenario C of the specification. *)
Example scenario_C (A B : Order) :
  run [call_add_order A; call_add_order B;
       call_process_order; call_process_order; call_process_order]
      OrderManager.__init__
  = (OrderManager.__init__, [Returns (Some A); Returns (Some B); Returns None]).
Proof. reflexivity. Qed.

(** Calls in another order: the first [process_order] finds nothing. *)
Example interleaved_calls (A B : Order) :
  run [call_process_order; call_add_order A; call_add_order B; call_process_order]
      OrderManager.__init__
  = (mkOrderManager [B], [Returns None; Returns (Some A)]).
Proof. reflexivity. Qed.

End OrderManagerProperties.

(** ** Payment *)

(** C8. [pay] raises [NotImplementedError] on an instance of [Payment]
    itself, whatever the amount, and on no instance of [CardPayment] or
    [CashPayment]. *)
Theorem pay_not_implemented (self : Payment) (amount : float) :
  (exists msg, snd (pay self amount) = Raises (NotImplementedError msg))
  <-> self = Payment_.
Proof.
  split.
  - intros [msg Hraise]. destruct self as [| card_number cvv | cash_given].
    + reflexivity.
    + discriminate Hraise.
    + simpl in Hraise. destruct (amount <=? cash_given); discriminate Hraise.
  - intros ->. eexists. reflexivity.
Qed.

Example pay_examples :
  pay Payment_ 21.50
  = ([], Raises (NotImplementedError "Subclasses must implement the pay() method."))
  /\ snd (pay (CashPayment 25) 21.50) = Returns tt
  /\ snd (pay (CardPayment "4111111111111234" 123) 21.50) = Returns tt.
Proof. repeat split. Qed.

(** C3. [CashPayment(cash_given).pay(amount)] returns without raising and
    prints one line.  When [cash_given >= amount] holds the line is the
    payment, "Paid $... in cash. Change: $...", with the amount and the
    change [cash_given - amount]; otherwise, NaN included, it is the
    refusal, "Insufficient funds. Need $... more.", with the missing
    [amount - cash_given]. *)
Theorem cash_payment_settles (cash_given amount : float) :
  snd (pay (CashPayment cash_given) amount) = Returns tt
  /\ ((amount <=? cash_given) = true ->
      fst (pay (CashPayment cash_given) amount)
      = [[Lit "Paid $"; Fix2 (Float amount); Lit " in cash. Change: $";
          Fix2 (Float (cash_given - amount))]])
  /\ ((amount <=? cash_given) = false ->
      fst (pay (CashPayment cash_given) amount)
      = [[Lit "Insufficient funds. Need $"; Fix2 (Float (amount - cash_given));
          Lit " more."]]).
Proof.
  simpl. destruct (amount <=? cash_given); simpl.
  - split; [reflexivity |]. split; [reflexivity | discriminate].
  - split; [reflexivity |]. split; [discriminate | reflexivity].
Qed.

Lemma cash_payment_settles_witness :
  fst (pay (CashPayment 25.00) 21.50)
  = [[Lit "Paid $"; Fix2 (Float 21.50); Lit " in cash. Change: $"; Fix2 (Float 3.5)]]
  /\ fst (pay (CashPayment 20.00) 21.50)
     = [[Lit "Insufficient funds. Need $"; Fix2 (Float 1.5); Lit " more."]].
Proof.
  split.
  - apply (cash_payment_settles 25.00 21.50). reflexivity.
  - apply (cash_payment_settles 20.00 21.50). reflexivity.
Defined.

(** Scenario D of the specification, cash equal to the amount, cash that
    falls short by a rounding error, and cash that is NaN. *)
Example scenario_D :
  pay (CashPayment 20.00) 21.50
  = ([[Lit "Insufficient funds. Need $"; Fix2 (Float 1.50); Lit " more."]], Returns tt)
  /\ pay (CashPayment 21.50) 21.50
     = ([[Lit "Paid $"; Fix2 (Float 21.50); Lit " in cash. Change: $"; Fix2 (Float 0)]],
        Returns tt)
  /\ pay (CashPayment 0.3) (0.1 + 0.2)
     = ([[Lit "Insufficient funds. Need $"; Fix2 (Float 0x1p-54); Lit " more."]],
        Returns tt)
  /\ pay (CashPayment nan) 21.50
     = ([[Lit "Insufficient funds. Need $"; Fix2 (Float nan); Lit " more."]], Returns tt).
Proof. repeat split. Qed.

(** *** Slices of a [str] *)

(** [s[-k:]] is all of [s] when [s] has at most [k] characters ... *)
Lemma slice_from_short (s : str) (k : nat) :
  (length s <= k)%nat -> slice_from s (- Z.of_nat k) = s.
Proof.
  intros Hshort. unfold slice_from.
  destruct (- Z.of_nat k <? 0)%Z eqn:Hsign.
  - rewrite Z.max_r by lia. reflexivity.
  - apply Z.ltb_ge in Hsign. assert (length s = 0%nat) as Hempty by lia.
    destruct s; [| discriminate Hempty]. now rewrite drop_nil.
Qed.

(** ... and otherwise, for [k > 0], its last [k] characters. *)
Lemma slice_from_last (s : str) (k : nat) :
  (0 < k <= length s)%nat ->
  length (slice_from s (- Z.of_nat k)) = k
  /\ exists front, s = front ++ slice_from s (- Z.of_nat k).
Proof.
  intros Hlong.
  assert (slice_from s (- Z.of_nat k) = drop (length s - k) s) as ->.
  { unfold slice_from. destruct (- Z.of_nat k <? 0)%Z eqn:Hsign.
    - rewrite Z.max_l by lia. f_equal. lia.
    - apply Z.ltb_ge in Hsign. lia. }
  split.
  - rewrite length_drop. lia.
  - exists (take (length s - k) s). now rewrite take_drop.
Qed.

(** C10. [CardPayment(card_number, cvv).pay(amount)] returns without raising
    for every card number and prints one line, "Paying $... with card ending
    in ...", with the amount and an ending that is the last four characters
    of the number, or the whole number when that is shorter. *)
Theorem card_payment_masks (card_number : str) (cvv : Z) (amount : float) :
  exists ending,
    pay (CardPayment card_number cvv) amount
    = ([[Lit "Paying $"; Fix2 (Float amount); Lit " with card ending in "; Str ending]],
       Returns tt)
    /\ ((4 <= length card_number)%nat ->
        length ending = 4%nat /\ exists front, card_number = front ++ ending)
    /\ ((length card_number < 4)%nat -> ending = card_number).
Proof.
  exists (slice_from card_number (-4)). split; [reflexivity |].
  change (-4)%Z with (- Z.of_nat 4)%Z. split; intros Hlen.
  - apply slice_from_last. lia.
  - apply slice_from_short. lia.
Qed.

Lemma card_payment_masks_witness :
  exists ending,
    pay (CardPayment "4111111111111234" 123) 21.50
    = ([[Lit "Paying $"; Fix2 (Float 21.50); Lit " with card ending in "; Str ending]],
       Returns tt)
    /\ length ending = 4%nat.
Proof.
  destruct (card_payment_masks "4111111111111234" 123 21.50)
    as (ending & Hpay & Hlong & _).
  exists ending. split; [exact Hpay |].
  apply Hlong. simpl. lia.
Defined.

(** A number whose last characters are not ASCII: 12 followed by the four
    Arabic-Indic digits 3, 4, 5 and 6 ends in those four characters. *)
Example card_payment_examples :
  pay (CardPayment "4111111111111234" 123) 21.50
  = ([[Lit "Paying $"; Fix2 (Float 21.50); Lit " with card ending in "; Str "1234"]],
     Returns tt)
  /\ fst (pay (CardPayment "12" 123) 21.50)
     = [[Lit "Paying $"; Fix2 (Float 21.50); Lit " with card ending in "; Str "12"]]
  /\ fst (pay (CardPayment "" 123) 21.50)
     = [[Lit "Paying $"; Fix2 (Float 21.50); Lit " with card ending in "; Str ""]]
  /\ fst (pay (CardPayment (lit "12" ++ [1635; 1636; 1637; 1638]%N) 123) 21.50)
     = [[Lit "Paying $"; Fix2 (Float 21.50); Lit " with card ending in ";
         Str [1635; 1636; 1637; 1638]%N]].
Proof. repeat split. Qed.
(** ** Menu *)

Lemma filter_name_partition (name' : str) (items : list item_dict) :
  (length (filter (fun item => name item ≠ name') items)
   + length (filter (fun item => name item = name') items))%nat
  = length items.
Proof.
  induction items as [| item items IH]; [reflexivity |].
  rewrite !filter_cons. destruct (decide (name item = name')) as [Heq | Hne].
  - rewrite decide_False by (intros Hne; now apply Hne). simpl. lia.
  - rewrite decide_True by assumption. simpl. lia.
Qed.

Lemma filter_name_all_kept (name' : str) (items : list item_dict) :
  Forall (fun item => name item ≠ name') items ->
  filter (fun item => name item ≠ name') items = items.
Proof.
  induction 1 as [| item items Hne _ IH]; [reflexivity |].
  rewrite filter_cons, decide_True by assumption. now rewrite IH.
Qed.

(** C7. [delete_item] returns [True] exactly when the category is a key of
    the menu.  It then leaves every other category as it was and keeps, of
    the category's items and in their order, all and only those whose name
    differs from the given one: every item with that name goes, however many
    there are, and when there is none the list stays as it is.  When the
    category is not a key, the menu is unchanged. *)
Theorem delete_item_removes_all (self : Menu) (category name' : str) :
  let after := fst (Menu.delete_item self category name') in
  let existed := snd (Menu.delete_item self category name') in
  (existed = true <-> is_Some (menu_items self !! category))
  /\ (forall other, other ≠ category ->
        menu_items after !! other = menu_items self !! other)
  /\ (forall items, menu_items self !! category = Some items ->
        exists kept,
          menu_items after !! category = Some kept
          /\ (forall item, item ∈ kept <-> item ∈ items /\ name item ≠ name')
          /\ kept `sublist_of` items
          /\ (length kept
              + length (filter (fun item => name item = name') items))%nat
             = length items
          /\ (Forall (fun item => name item ≠ name') items -> kept = items))
  /\ (menu_items self !! category = None -> after = self).
Proof.
  unfold Menu.delete_item.
  destruct (menu_items self !! category) as [items |] eqn:Hlookup; simpl.
  - split; [split; eauto |]. split; [| split].
    + intros other Hother. now rewrite lookup_insert_ne.
    + intros ? [= <-]. exists (filter (fun item => name item ≠ name') items).
      rewrite lookup_insert_eq. split; [reflexivity |]. split; [| split; [| split]].
      * intros item. rewrite list_elem_of_filter. tauto.
      * apply sublist_filter.
      * apply filter_name_partition.
      * apply filter_name_all_kept.
    + discriminate.
  - split; [split; [discriminate | intros [? [=]]] |]. repeat split; try discriminate.
Qed.

Lemma delete_item_removes_all_witness :
  snd (Menu.delete_item menu_two_cokes "Beverage" "Coke") = true
  /\ fst (Menu.delete_item menu_two_cokes "Dessert" "Coke") = menu_two_cokes.
Proof.
  split.
  - apply (delete_item_removes_all menu_two_cokes "Beverage" "Coke"). vm_compute. eauto.
  - apply (delete_item_removes_all menu_two_cokes "Dessert" "Coke"). reflexivity.
Defined.

Example delete_item_examples :
  menu_items menu_two_cokes !! lit "Beverage"
  = Some [mkItem "Coke" 2.5; mkItem "Tea" 2; mkItem "Coke" 3]
  /\ Menu.delete_item menu_two_cokes "Beverage" "Coke"
     = (mkMenu (<[lit "Beverage" := [mkItem "Tea" 2]]> (menu_items menu_two_cokes)), true)
  /\ Menu.delete_item menu_two_cokes "Beverage" "Water" = (menu_two_cokes, true)
  /\ Menu.delete_item menu_two_cokes "Dessert" "Coke" = (menu_two_cokes, false).
Proof. repeat split. Qed.


(** * Part IV: further properties of the program *)

(** ** Menu: add, update, delete *)

(** X1. After [add_item] the category holds its former items, none if it was
    not a key, followed by the new item; the other categories are as they
    were. *)
Theorem add_item_appends (self : Menu) (category name' : str) (price' : float) :
  let after := Menu.get_menu (Menu.add_item self category name' price') in
  after !! category
  = Some (default [] (Menu.get_menu self !! category) ++ [mkItem name' price'])
  /\ (forall other, other ≠ category -> after !! other = Menu.get_menu self !! other).
Proof.
  unfold Menu.get_menu, Menu.add_item. simpl.
  destruct (menu_items self !! category) as [items |] eqn:Hlookup; simpl.
  - split.
    + now rewrite lookup_alter_eq, Hlookup.
    + intros other Hother. now rewrite lookup_alter_ne.
  - split.
    + now rewrite lookup_alter_eq, lookup_insert_eq.
    + intros other Hother. now rewrite lookup_alter_ne, lookup_insert_ne.
Qed.

Lemma update_first_None (old_name new_name : str) (new_price : float)
    (items : list item_dict) :
  Menu.update_first old_name new_name new_price items = None
  <-> Forall (fun item => name item ≠ old_name) items.
Proof.
  induction items as [| item items IH]; simpl.
  - split; [constructor | reflexivity].
  - destruct (decide (name item = old_name)) as [Heq | Hne].
    + split; [discriminate |]. intros Hall. apply Forall_cons in Hall as [Hne _].
      contradiction.
    + rewrite fmap_None, IH. split.
      * intros Hall. now constructor.
      * intros Hall. now apply Forall_cons in Hall as [_ Hall].
Qed.

Lemma update_first_at (old_name new_name : str) (new_price : float)
    (before rest : list item_dict) (item : item_dict) :
  Forall (fun item => name item ≠ old_name) before ->
  name item = old_name ->
  Menu.update_first old_name new_name new_price (before ++ item :: rest)
  = Some (before ++ mkItem new_name new_price :: rest).
Proof.
  intros Hbefore Hitem.
  induction Hbefore as [| item' before Hne _ IH]; simpl.
  - now rewrite decide_True.
  - rewrite decide_False by assumption. now rewrite IH.
Qed.

(** X2. [update_item] returns [True] exactly when the category is a key and one
    of its items has the old name.  It then replaces the first such item by
    the new name and price and leaves the items before and after it, later
    items of the old name included, as they were.  The other categories are
    untouched, and when it returns [False] the menu is unchanged. *)
Theorem update_item_first_match (self : Menu) (category old_name new_name : str)
    (new_price : float) :
  let after := fst (Menu.update_item self category old_name new_name new_price) in
  let found := snd (Menu.update_item self category old_name new_name new_price) in
  (found = true
   <-> exists items item,
         Menu.get_menu self !! category = Some items
         /\ item ∈ items /\ name item = old_name)
  /\ (found = false -> after = self)
  /\ (forall other, other ≠ category ->
        Menu.get_menu after !! other = Menu.get_menu self !! other)
  /\ (forall before item rest,
        Menu.get_menu self !! category = Some (before ++ item :: rest) ->
        Forall (fun item => name item ≠ old_name) before ->
        name item = old_name ->
        Menu.get_menu after !! category
        = Some (before ++ mkItem new_name new_price :: rest)).
Proof.
  unfold Menu.update_item, Menu.get_menu.
  destruct (menu_items self !! category) as [items |] eqn:Hlookup.
  - destruct (Menu.update_first old_name new_name new_price items) as [items' |] eqn:Hupdate;
      simpl.
    + split; [| split; [discriminate |]; split].
      * split; [intros _ | reflexivity].
        destruct (Exists_dec (fun item => name item = old_name) items) as [Hex | Hnone].
        -- apply Exists_exists in Hex as (item & Hin & Hname). eauto.
        -- exfalso. apply Forall_Exists_neg in Hnone.
           apply update_first_None with (new_name := new_name) (new_price := new_price) in Hnone.
           congruence.
      * intros other Hother. now rewrite lookup_insert_ne.
      * intros before item rest [= ->] Hbefore Hitem.
        rewrite update_first_at in Hupdate by assumption.
        injection Hupdate as <-. now rewrite lookup_insert_eq.
    + apply update_first_None in Hupdate.
      split; [| split; [reflexivity |]; split].
      * split; [discriminate |]. intros (items' & item & [= <-] & Hin & Hname).
        rewrite Forall_forall in Hupdate. now apply Hupdate in Hin.
      * reflexivity.
      * intros before item rest [= ->] _ Hitem.
        apply Forall_app in Hupdate as [_ Hupdate].
        apply Forall_cons in Hupdate as [Hne _]. contradiction.
  - simpl. split; [| split; [reflexivity |]; split].
    + split; [discriminate |]. intros (items & item & [=] & _).
    + reflexivity.
    + intros before item rest [=].
Qed.

Lemma update_item_first_match_witness :
  Menu.get_menu (fst (Menu.update_item menu_two_cokes "Beverage" "Coke" "Cola" 2.75))
    !! lit "Beverage"
  = Some [mkItem "Cola" 2.75; mkItem "Tea" 2; mkItem "Coke" 3].
Proof.
  destruct (update_item_first_match menu_two_cokes "Beverage" "Coke" "Cola" 2.75)
    as (_ & _ & _ & Hfirst).
  apply (Hfirst [] (mkItem "Coke" 2.5) [mkItem "Tea" 2; mkItem "Coke" 3]).
  - reflexivity.
  - constructor.
  - reflexivity.
Defined.

Lemma update_first_length (old_name new_name : str) (new_price : float)
    (items items' : list item_dict) :
  Menu.update_first old_name new_name new_price items = Some items' ->
  length items' = length items.
Proof.
  revert items'. induction items as [| item items IH]; intros items'; simpl.
  - discriminate.
  - destruct (decide (name item = old_name)).
    + intros [= <-]. reflexivity.
    + destruct (Menu.update_first old_name new_name new_price items) as [rest |];
        [| discriminate].
      intros [= <-]. simpl. now rewrite (IH rest).
Qed.

(** X3. [update_item] keeps the shape of the menu: the same categories, and in
    each of them the same number of items, found or not. *)
Theorem update_item_keeps_shape (self : Menu) (category old_name new_name : str)
    (new_price : float) :
  let after := fst (Menu.update_item self category old_name new_name new_price) in
  dom (Menu.get_menu after) = dom (Menu.get_menu self)
  /\ (forall c, length <$> Menu.get_menu after !! c = length <$> Menu.get_menu self !! c).
Proof.
  unfold Menu.update_item, Menu.get_menu.
  destruct (menu_items self !! category) as [items |] eqn:Hlookup; [| now split].
  destruct (Menu.update_first old_name new_name new_price items) as [items' |] eqn:Hupdate;
    [| now split].
  simpl. split.
  - apply dom_insert_lookup_L. eauto.
  - intros c. destruct (decide (c = category)) as [-> | Hother].
    + rewrite lookup_insert_eq, Hlookup. simpl.
      now rewrite (update_first_length _ _ _ _ _ Hupdate).
    + now rewrite lookup_insert_ne.
Qed.

(** X4. [delete_item] never adds or removes a category: one whose items are all
    deleted stays a key, with an empty list.  Deleting the same name again
    changes nothing more and returns the same answer. *)
Theorem delete_item_keeps_categories (self : Menu) (category name' : str) :
  let after := fst (Menu.delete_item self category name') in
  dom (Menu.get_menu after) = dom (Menu.get_menu self)
  /\ Menu.delete_item after category name'
     = (after, snd (Menu.delete_item self category name')).
Proof.
  unfold Menu.delete_item, Menu.get_menu.
  destruct (menu_items self !! category) as [items |] eqn:Hlookup; simpl.
  - split.
    + apply dom_insert_lookup_L. eauto.
    + rewrite lookup_insert_eq. f_equal. f_equal.
      rewrite insert_insert_eq. f_equal.
      apply list_filter_filter_l. tauto.
  - split; [reflexivity |]. now rewrite Hlookup.
Qed.

(** X5. Adding an item and deleting its name again always finds the
    category.  The menu is then as before exactly when the category was a
    key and held no item of that name; when the category was not a key it
    stays behind, empty. *)
Theorem add_then_delete_item (self : Menu) (category name' : str) (price' : float) :
  let round := Menu.delete_item (Menu.add_item self category name' price') category name' in
  snd round = true
  /\ (fst round = self
      <-> exists items,
            Menu.get_menu self !! category = Some items
            /\ Forall (fun item => name item ≠ name') items)
  /\ (Menu.get_menu self !! category = None ->
      Menu.get_menu (fst round) = <[category := []]> (Menu.get_menu self)).
Proof.
  unfold Menu.delete_item, Menu.add_item, Menu.get_menu. simpl.
  destruct self as [m]. simpl.
  destruct (m !! category) as [items |] eqn:Hlookup.
  - rewrite lookup_alter_eq, Hlookup. simpl.
    split; [reflexivity |]. split; [| discriminate].
    rewrite filter_app, filter_cons, decide_False by (simpl; tauto).
    rewrite filter_nil, app_nil_r. split.
    + intros [= Hsame]. exists items. split; [reflexivity |].
      apply (f_equal (fun m => m !! category)) in Hsame.
      rewrite lookup_insert_eq, Hlookup in Hsame. injection Hsame as Hsame.
      rewrite <- Hsame. apply Forall_forall. intros item Hin.
      now apply list_elem_of_filter in Hin.
    + intros (? & [= <-] & Hfresh). f_equal.
      rewrite filter_name_all_kept by assumption.
      apply map_eq. intros other. destruct (decide (other = category)) as [-> | Hother].
      * now rewrite lookup_insert_eq.
      * now rewrite lookup_insert_ne, lookup_alter_ne.
  - rewrite lookup_alter_eq, lookup_insert_eq. simpl.
    split; [reflexivity |]. split.
    + split; [| intros (? & [=] & _)].
      intros [= Hsame]. apply (f_equal (fun m => m !! category)) in Hsame.
      rewrite lookup_insert_eq, Hlookup in Hsame. discriminate Hsame.
    + intros _. rewrite filter_cons, decide_False by (simpl; tauto). rewrite filter_nil.
      apply map_eq. intros other. destruct (decide (other = category)) as [-> | Hother].
      * now rewrite !lookup_insert_eq.
      * now rewrite !lookup_insert_ne, lookup_alter_ne, lookup_insert_ne.
Qed.

Lemma add_then_delete_item_witness :
  fst (Menu.delete_item (Menu.add_item menu "Beverage" "Tea" 2) "Beverage" "Tea") = menu
  /\ fst (Menu.delete_item (Menu.add_item menu "Beverage" "Coke" 3) "Beverage" "Coke")
     <> menu
  /\ Menu.get_menu
       (fst (Menu.delete_item (Menu.add_item menu "Dessert" "Flan" 4) "Dessert" "Flan"))
     = <[lit "Dessert" := []]> (Menu.get_menu menu).
Proof.
  split; [| split].
  - apply (add_then_delete_item menu "Beverage" "Tea" 2).
    exists [mkItem "Coke" 2.5]. split; [reflexivity |].
    repeat constructor. discriminate.
  - intros Hsame. apply (add_then_delete_item menu "Beverage" "Coke" 3) in Hsame
      as (items & Hitems & Hfresh).
    vm_compute in Hitems. injection Hitems as <-.
    apply Forall_cons in Hfresh as [Hname _]. now apply Hname.
  - apply (add_then_delete_item menu "Dessert" "Flan" 4). reflexivity.
Defined.

(** ** Order: totals *)

Lemma for_each_snoc {A S : Type} (body : S -> A -> outcome S) (items : list A)
    (item : A) (state : S) :
  for_each body (items ++ [item]) state
  = (state ← for_each body items state; body state item).
Proof.
  revert state. induction items as [| first items IH]; intros state; simpl.
  - now destruct (body state item).
  - destruct (body state first) as [state' | e |]; simpl; try reflexivity.
    apply IH.
Qed.



(** X9. What one more entry does to the total.  In an order that has a
    Maincourse entry, or when the new item is not a Maincourse, the new
    total is the old one plus the entry's subtotal, taken times 0.9 exactly
    when the order has a Maincourse entry and the item is a Beverage; if the
    old total raises, so does the new one.  The first Maincourse of an order
    makes the total the sum in which every Beverage entry already there
    counts times 0.9. *)
Theorem add_menu_item_total (self : Order) (item : MenuItem) (quantity : Z) :
  let after := fst (Order.add_menu_item self item quantity) in
  (has_Maincourse_entry self ->
   Order.calculate_total_price after
   = (total ← Order.calculate_total_price self;
      amount ← discounted_subtotal (item, quantity);
      total ← number_add_float total amount;
      Returns (Float total)))
  /\ (~ has_Maincourse_entry self -> _class item ≠ maincourse ->
      Order.calculate_total_price after
      = (total ← Order.calculate_total_price self;
         amount ← subtotal (item, quantity);
         total ← number_add_float total amount;
         Returns (Float total)))
  /\ (~ has_Maincourse_entry self -> _class item = maincourse ->
      Order.calculate_total_price after
      = sum_from (Int 0)
          (map discounted_subtotal (_order_items self) ++ [subtotal (item, quantity)])).
Proof.
  cbn zeta. unfold Order.calculate_total_price.
  cbn [Order.add_menu_item fst _order_items]. rewrite existsb_app. cbn [existsb].
  rewrite orb_false_r, for_each_snoc.
  split; [| split].
  - intros Hmain. apply has_maincourse_scan in Hmain. rewrite Hmain. cbn [orb].
    destruct (for_each _ _ _) as [total | e |]; try reflexivity.
    apply accumulate_discount.
  - intros Hmain Hitem. apply has_maincourse_scan_false in Hmain. rewrite Hmain.
    assert (isinstance_Maincourse item = false) as ->.
    { unfold isinstance_Maincourse. now destruct (_class item). }
    cbn [orb].
    destruct (for_each _ _ _) as [total | e |]; reflexivity.
  - intros _ Hitem.
    assert (isinstance_Maincourse item = true) as ->
      by now apply isinstance_Maincourse_class.
    rewrite orb_true_r, <- for_each_snoc.
    rewrite (for_each_accumulate true discounted_subtotal accumulate_discount).
    rewrite map_app. cbn [map]. unfold discounted_subtotal at 2. cbn [fst].
    now rewrite Hitem.
Qed.

Lemma add_menu_item_total_witness :
  Order.calculate_total_price
    (fst (Order.add_menu_item order_B (Maincourse "Spaghetti" 12.00) 1))
  = sum_from (Int 0)
      (map discounted_subtotal (_order_items order_B)
       ++ [subtotal (Maincourse "Spaghetti" 12.00, 1%Z)])
  /\ Order.calculate_total_price
       (fst (Order.add_menu_item order_A (Beverage "Tea" 2 "Small") 1))
     = Returns (Float (21.5 + 2 * 1 * 0.9)).
Proof.
  split.
  - apply (add_menu_item_total order_B (Maincourse "Spaghetti" 12.00) 1); [| reflexivity].
    intros Hmain. apply has_maincourse_scan in Hmain. discriminate Hmain.
  - apply (add_menu_item_total order_A (Beverage "Tea" 2 "Small") 1).
    apply has_maincourse_scan. reflexivity.
Defined.

(** The first Maincourse can lower the price of what is already ordered,
    and the totals are those of the doubles. *)
Example first_maincourse_discounts_beverages :
  Order.calculate_total_price order_B = Returns (Float 12.50)
  /\ Order.calculate_total_price
       (fst (Order.add_menu_item order_B (Maincourse "Soup" 0.10) 1))
     = Returns (Float 12.35)
  /\ Order.calculate_total_price
       (mkOrder [(Beverage "a" 1.1 "S", 1%Z); (Beverage "b" 2.2 "S", 1%Z);
                 (Beverage "c" 3.3 "S", 1%Z); (Maincourse "d" 0.1, 1%Z)])
     = Returns (Float 6.039999999999999).
Proof. repeat split. Qed.

(** X10. An order built from a fresh one by [add_menu_item] calls holds exactly
    the entries of the calls, in the order of the calls; nothing is merged
    or dropped, whatever the quantities. *)
Theorem add_menu_items_in_order (self : Order) (entries : list (MenuItem * Z)) :
  _order_items (add_menu_items self entries) = _order_items self ++ entries
  /\ add_menu_items Order.__init__ entries = mkOrder entries.
Proof.
  assert (forall order, _order_items (add_menu_items order entries)
                        = _order_items order ++ entries) as Hgeneral.
  { unfold add_menu_items.
    induction entries as [| [item quantity] entries IH]; intros order; simpl.
    - now rewrite app_nil_r.
    - rewrite IH. simpl. now rewrite <- app_assoc. }
  split; [apply Hgeneral |].
  specialize (Hgeneral Order.__init__). simpl in Hgeneral.
  destruct (add_menu_items Order.__init__ entries) as [items]. simpl in Hgeneral.
  now subst items.
Qed.

(** ** MenuItem: the setters *)

(** X11. [set_price] returns exactly for the prices that are not below
    zero: those that are at least zero, either zero included, and NaN.  The
    item then has the new price, which [total_price] uses, and its name and
    class are as before.  [set_name] and [set_price] act on different
    attributes, so the two calls can be made in either order, whether
    [set_price] raises or not. *)
Theorem set_price_accepts_nonneg (self : MenuItem) (price : float) :
  let after := fst (set_price self price) in
  (snd (set_price self price) = Returns tt
   <-> (0 <=? price) = true \/ is_nan price = true)
  /\ (snd (set_price self price) = Returns tt ->
      get_price after = price
      /\ get_name after = get_name self
      /\ _class after = _class self
      /\ forall quantity, total_price after quantity = float_mul_int price quantity)
  /\ (forall name',
        fst (set_price (fst (set_name self name')) price)
        = fst (set_name after name')).
Proof.
  simpl. rewrite <- not_negative. unfold set_price, set_name.
  destruct (price <? 0); simpl.
  - split; [| split].
    + split; discriminate.
    + discriminate.
    + reflexivity.
  - split; [| split].
    + now split.
    + intros _. repeat split.
    + reflexivity.
Qed.

Lemma set_price_accepts_nonneg_witness :
  get_price (fst (set_price (Beverage "Coke" 2.5 "Large") 0)) = 0
  /\ snd (set_price (Beverage "Coke" 2.5 "Large") nan) = Returns tt.
Proof.
  destruct (set_price_accepts_nonneg (Beverage "Coke" 2.5 "Large") 0)
    as (_ & Hstored & _).
  destruct (set_price_accepts_nonneg (Beverage "Coke" 2.5 "Large") nan)
    as (Hreturns & _).
  split.
  - apply Hstored. reflexivity.
  - apply Hreturns. right. reflexivity.
Defined.

(** ** The processing loop of the script *)




(** What the script prints for its two orders, and a queue whose second
    order has a quantity beyond the doubles. *)
Example script_output :
  process_orders 3 (mkOrderManager [order1; order2])
  = Some (OrderManager.__init__,
          [[Lit "\processed order:"];
           [Str "2"; Lit "x "; Str "Coke"; Lit " - $"; Fix2 (Float 2.5); Lit newline;
            Str "1"; Lit "x "; Str "Spring Rolls"; Lit " - $"; Fix2 (Float 5.0);
            Lit newline;
            Str "1"; Lit "x "; Str "Spaghetti"; Lit " - $"; Fix2 (Float 12.0)];
           [Lit "Total to pay: $"; Fix2 (Float 22)];
           [Lit "\processed order:"];
           [Str "1"; Lit "x "; Str "Coke"; Lit " - $"; Fix2 (Float 2.5); Lit newline;
            Str "2"; Lit "x "; Str "Spring Rolls"; Lit " - $"; Fix2 (Float 5.0)];
           [Lit "Total to pay: $"; Fix2 (Float 12.5)]],
          Returns tt)
  /\ process_orders 4
       (mkOrderManager
          [order2; mkOrder [(MenuItem_ "Coke" 2.5, (2 ^ 1024)%Z)]; order1])
     = Some (mkOrderManager [order1],
             [[Lit "\processed order:"]; Order.__str__ order2;
              [Lit "Total to pay: $"; Fix2 (Float 12.5)];
              [Lit "\processed order:"];
              Order.__str__ (mkOrder [(MenuItem_ "Coke" 2.5, (2 ^ 1024)%Z)])],
             Raises (OverflowError "int too large to convert to float")).
Proof. split; reflexivity. Qed.
